(** * Tech support agent: the deterministic core of [tech_support_agent.py]

    Shallow embedding of the two agent tools [search_knowledge_base] and
    [check_severity], of the [KnowledgeBase] and [SupportQuery] models, and of
    the two knowledge-base literals of the module.

    Python strings are modelled as [String.string]; [str.lower] is modelled on
    the ASCII range (A-Z mapped to a-z, every other character unchanged).
    A Python [dict] is an association list in insertion order, whose keys are
    pairwise distinct; [d[k] = v] replaces the value of an existing key in
    place and appends a new key at the end. *)

From Stdlib Require Import String Ascii ZArith List Bool Lia.
From Stdlib Require Import Numbers.DecimalString.
Import ListNotations.
Open Scope string_scope.

(** ** Python string primitives *)

(** [str.lower] on one character (ASCII range). *)
Definition lower_char (c : ascii) : ascii :=
  let n := nat_of_ascii c in
  if andb (Nat.leb 65 n) (Nat.leb n 90) then ascii_of_nat (n + 32) else c.

(** [str.lower]. *)
Fixpoint lower (s : string) : string :=
  match s with
  | EmptyString => EmptyString
  | String c t => String (lower_char c) (lower t)
  end.

(** [needle in hay] for two strings: [needle] occurs at some position of [hay]. *)
Fixpoint contains (needle hay : string) : bool :=
  prefix needle hay ||
  match hay with
  | EmptyString => false
  | String _ t => contains needle t
  end.

(** [str(n)] for a Python [int]. *)
Definition str_int (n : Z) : string := NilZero.string_of_int (Z.to_int n).

(** ** Python dictionaries *)

Definition dict (V : Type) := list (string * V).

(** [d.get(k, default)] *)
Fixpoint dict_get {V} (d : dict V) (k : string) (default : V) : V :=
  match d with
  | [] => default
  | (k', v) :: t => if String.eqb k k' then v else dict_get t k default
  end.

(** [d[k] = v] *)
Fixpoint dict_set {V} (d : dict V) (k : string) (v : V) : dict V :=
  match d with
  | [] => [(k, v)]
  | (k', v') :: t =>
      if String.eqb k k' then (k', v) :: t else (k', v') :: dict_set t k v
  end.

(** ** Data model *)

Record KnowledgeBase := {
  product : string;
  known_issues : dict string;
  solutions : dict (list string)
}.

(** [kb = KnowledgeBase(...)] at module scope (lines 28-40). *)
Definition kb_module : KnowledgeBase := {|
  product := "CloudDB";
  known_issues := [
    ("Can't connect to database", "Check connection string and firewall rules");
    ("Database crash", "Verify system resources and restart service");
    ("Slow queries", "Analyze query performance and optimize indexes") ];
  solutions := [
    ("connection", ["Check credentials"; "Verify network access"; "Test port availability"]);
    ("performance", ["Run diagnostics"; "Check resource usage"; "Optimize queries"]);
    ("crash", ["Collect logs"; "Check error messages"; "Restart service"]) ]
|}.

(** [kb = KnowledgeBase(...)] inside [handle_support_query] (lines 98-110). *)
Definition kb_handler : KnowledgeBase := {|
  product := "CloudDB";
  known_issues := [
    ("Can't connect to database", "Check connection string and firewall rules");
    ("Database crash", "Verify system resources and restart service");
    ("Slow queries", "Analyze query performance and optimize indexes") ];
  solutions := [
    ("connection", ["Check credentials"; "Verify network access"; "Test port availability"]);
    ("performance", ["Run diagnostics"; "Check resource usage"; "Optimize queries"]);
    ("crash", ["Collect logs"; "Check error messages"; "Restart service"]) ]
|}.

(** ** [search_knowledge_base] (lines 60-70); [ctx.deps] is the [kb] argument. *)

Definition not_found : dict string :=
  [("error", "Product not found in knowledge base")].

(** One iteration of the [for known_issue, solution in ...] loop. *)
Definition search_step (issue : string) (matches : dict string)
    (item : string * string) : dict string :=
  let '(known_issue, solution) := item in
  if contains (lower issue) (lower known_issue)
  then dict_set matches known_issue solution
  else matches.

Definition search_knowledge_base (kb : KnowledgeBase) (issue product_ : string)
    : dict string :=
  if negb (String.eqb product_ (product kb)) then not_found
  else fold_left (search_step issue) (known_issues kb) [].

(** ** [check_severity] (lines 73-93) *)

Record SeverityResult := {
  priority_level : Z;
  needs_escalation : bool;
  estimated_time : string
}.

Definition severity_levels : dict Z :=
  [("low", 1%Z); ("medium", 2%Z); ("high", 3%Z); ("critical", 4%Z)].

Definition critical_keywords : list string :=
  ["crash"; "data loss"; "security"; "breach"].

(** [base_priority = severity_levels.get(severity.lower(), 1)] *)
Definition base_priority_of (severity : string) : Z :=
  dict_get severity_levels (lower severity) 1%Z.

(** [any(keyword in issue.lower() for keyword in critical_keywords)] *)
Definition has_critical_keyword (issue : string) : bool :=
  existsb (fun keyword => contains keyword (lower issue)) critical_keywords.

Definition check_severity (issue severity : string) : SeverityResult :=
  let base_priority := base_priority_of severity in
  let base_priority :=
    if has_critical_keyword issue then Z.max base_priority 3 else base_priority in
  {| priority_level := base_priority;
     needs_escalation := Z.geb base_priority 3;
     estimated_time := str_int (base_priority * 2) ++ "h" |}.

(** ** [SupportQuery] (lines 9-14)

    The default [datetime.datetime.now()] is an expression of the class body:
    it is evaluated once, when the [class] statement runs, and the resulting
    value is the field default of every instance. Instants are integers. *)

Record SupportQuery := {
  q_issue : string;
  q_severity : string;
  q_product : string;
  q_user_id : string;
  q_timestamp : Z
}.

(** The class object, with the field default computed by its body. *)
Record SupportQueryClass := { timestamp_default : Z }.

(** Running the [class SupportQuery] statement at instant [now]. *)
Definition define_SupportQuery (now : Z) : SupportQueryClass :=
  {| timestamp_default := now |}.

(** [SupportQuery(issue=..., ..., [timestamp=...])] called at instant [now]:
    an omitted field takes the class default; the clock is not read. *)
Definition construct_SupportQuery (cls : SupportQueryClass) (now : Z)
    (issue severity product_ user_id : string) (timestamp : option Z)
    : SupportQuery :=
  {| q_issue := issue; q_severity := severity; q_product := product_;
     q_user_id := user_id;
     q_timestamp := match timestamp with
                    | Some t => t
                    | None => timestamp_default cls
                    end |}.

(** ** [SupportResponse] (lines 16-21), the agent's structured result. *)
Module Response.
Record SupportResponse := {
  solution : string;
  next_steps : list string;
  escalate : bool;
  priority_level : Z;
  estimated_time : string
}.
End Response.

(** ** [handle_support_query] (lines 96-125) *)

Definition newline : string := String (ascii_of_nat 10) EmptyString.

(** The eight spaces that start every line of the triple-quoted prompt. *)
Definition indent : string := "        ".

(** The f-string passed to [tech_support_agent.run] (lines 114-121). *)
Definition support_prompt (query : SupportQuery) : string :=
  newline ++
  indent ++ "Customer Issue:" ++ newline ++
  indent ++ "Product: " ++ q_product query ++ newline ++
  indent ++ "Severity: " ++ q_severity query ++ newline ++
  indent ++ "Issue: " ++ q_issue query ++ newline ++
  indent ++ newline ++
  indent ++ "Please analyze this issue and provide a solution." ++ newline ++
  indent.

(** The handler, given the remote agent as a function of the prompt and of the
    [deps] object; [None] is a failure of the remote call, propagated as is.
    The [deps] is the knowledge base built inside the handler. *)
Definition handle_support_query
    (agent_run : string -> KnowledgeBase -> option Response.SupportResponse)
    (query : SupportQuery) : option Response.SupportResponse :=
  let kb := kb_handler in
  agent_run (support_prompt query) kb.

Example ex_search_connect :
  search_knowledge_base kb_module "connect" "CloudDB" =
  [("Can't connect to database", "Check connection string and firewall rules")].
Proof. reflexivity. Qed.

Example ex_sev_crash :
  check_severity "Database crash" "low" =
  {| priority_level := 3; needs_escalation := true; estimated_time := "6h" |}.
Proof. reflexivity. Qed.

Example ex_sev_slow :
  check_severity "Slow queries" "medium" =
  {| priority_level := 2; needs_escalation := false; estimated_time := "4h" |}.
Proof. reflexivity. Qed.

Example ex_sev_upper : priority_level (check_severity "x" "CRITICAL") = 4%Z.
Proof. reflexivity. Qed.

(** ** Helper lemmas *)

Lemma contains_empty (s : string) : contains "" s = true.
Proof. destruct s; reflexivity. Qed.

Lemma dict_set_fresh {V} (d : dict V) k v :
  ~ In k (map fst d) -> dict_set d k v = (d ++ [(k, v)])%list.
Proof.
  induction d as [|[k' v'] t IH]; intros Hn; simpl in *; [reflexivity|].
  destruct (String.eqb_spec k k') as [->|Hne]; [exfalso; tauto|].
  rewrite IH by tauto. reflexivity.
Qed.

Lemma dict_set_in {V} (d : dict V) k v x :
  In x (dict_set d k v) -> In x d \/ x = (k, v).
Proof.
  induction d as [|[k' v'] t IH]; simpl; intros H.
  - destruct H as [H|[]]; auto.
  - destruct (String.eqb_spec k k') as [->|_]; simpl in H.
    + destruct H as [H|H]; [subst; auto|auto].
    + destruct H as [H|H]; [auto|]. destruct (IH H); auto.
Qed.

Definition issue_matches (issue : string) (item : string * string) : bool :=
  contains (lower issue) (lower (fst item)).

Lemma search_fold_filter (issue : string) (l acc : dict string) :
  NoDup (map fst l) ->
  (forall k, In k (map fst l) -> ~ In k (map fst acc)) ->
  fold_left (search_step issue) l acc = (acc ++ filter (issue_matches issue) l)%list.
Proof.
  revert acc; induction l as [|[k v] t IH]; intros acc Hnd Hdis; simpl.
  - rewrite app_nil_r; reflexivity.
  - inversion Hnd as [|? ? Hkt Hndt]; subst.
    unfold issue_matches at 1; simpl.
    destruct (contains (lower issue) (lower k)).
    + rewrite dict_set_fresh by (apply Hdis; left; reflexivity).
      rewrite IH; [rewrite <- app_assoc; reflexivity|assumption|].
      intros k' Hk' Hin. rewrite map_app in Hin.
      apply in_app_or in Hin as [Hin|Hin].
      * apply (Hdis k'); [right; assumption|assumption].
      * simpl in Hin. destruct Hin as [Heq|[]]. subst. contradiction.
    + apply IH; [assumption|]. intros k' Hk'. apply Hdis; right; assumption.
Qed.

Lemma search_filter (kb : KnowledgeBase) (issue : string) :
  NoDup (map fst (known_issues kb)) ->
  search_knowledge_base kb issue (product kb) =
  filter (issue_matches issue) (known_issues kb).
Proof.
  intros Hnd. unfold search_knowledge_base. rewrite String.eqb_refl. simpl.
  apply search_fold_filter; [assumption|]. intros k _ [].
Qed.

Lemma search_fold_incl (issue : string) (l acc : dict string) x :
  In x (fold_left (search_step issue) l acc) -> In x acc \/ In x l.
Proof.
  revert acc; induction l as [|[k v] t IH]; intros acc H; simpl in *; [auto|].
  destruct (IH _ H) as [H1|H1]; [|auto].
  destruct (contains (lower issue) (lower k)); [|auto].
  destruct (dict_set_in _ _ _ _ H1); auto.
Qed.

Lemma base_priority_range (s : string) :
  (1 <= base_priority_of s <= 4)%Z.
Proof.
  unfold base_priority_of, severity_levels; simpl.
  repeat match goal with |- context [String.eqb ?a ?b] => destruct (String.eqb a b) end;
  lia.
Qed.

Lemma check_severity_priority (issue severity : string) :
  priority_level (check_severity issue severity) =
  if has_critical_keyword issue
  then Z.max (base_priority_of severity) 3 else base_priority_of severity.
Proof. unfold check_severity; destruct (has_critical_keyword issue); reflexivity. Qed.

(** ** Claims *)

(** C1: every result of [check_severity] has [priority_level] in {1,2,3,4},
    and [needs_escalation] holds exactly when [priority_level >= 3]. *)
Theorem check_severity_invariant (issue severity : string) :
  let r := check_severity issue severity in
  (priority_level r = 1 \/ priority_level r = 2 \/
   priority_level r = 3 \/ priority_level r = 4)%Z /\
  (needs_escalation r = true <-> (priority_level r >= 3)%Z).
Proof.
  pose proof (base_priority_range severity) as Hb.
  unfold check_severity; simpl.
  destruct (has_critical_keyword issue); simpl; split;
    try rewrite Z.geb_le; lia.
Qed.

(** C2: the base priority is read from the table low=1, medium=2, high=3,
    critical=4 with the lowercased label, every other label giving 1; and
    [check_severity x "critical"] has priority 4 for every [x]. *)
Theorem check_severity_table (severity : string) :
  base_priority_of severity =
    (if String.eqb (lower severity) "low" then 1
     else if String.eqb (lower severity) "medium" then 2
     else if String.eqb (lower severity) "high" then 3
     else if String.eqb (lower severity) "critical" then 4
     else 1)%Z /\
  (forall x, priority_level (check_severity x "critical") = 4%Z).
Proof.
  split; [reflexivity|].
  intros x. rewrite check_severity_priority.
  destruct (has_critical_keyword x); reflexivity.
Qed.

(** C3: with severity "low" the priority is 1, unless the lowercased issue
    contains one of "crash", "data loss", "security", "breach", where it is 3
    (the override is [max base 3] for every severity); "Database crash" at
    "low" gives priority 3, escalation and "6h". *)
Theorem check_severity_low (issue : string) :
  (has_critical_keyword issue = true <->
   exists kw, In kw ["crash"; "data loss"; "security"; "breach"] /\
              contains kw (lower issue) = true) /\
  priority_level (check_severity issue "low") =
    (if has_critical_keyword issue then 3 else 1)%Z /\
  (forall severity, priority_level (check_severity issue severity) =
    if has_critical_keyword issue
    then Z.max (base_priority_of severity) 3 else base_priority_of severity) /\
  check_severity "Database crash" "low" =
    {| priority_level := 3; needs_escalation := true; estimated_time := "6h" |}.
Proof.
  split; [unfold has_critical_keyword; apply existsb_exists|].
  split; [rewrite check_severity_priority; destruct (has_critical_keyword issue); reflexivity|].
  split; [intros; apply check_severity_priority|reflexivity].
Qed.

(** C4: [estimated_time] is the decimal rendering of [priority_level * 2]
    followed by "h": 1 gives "2h", 2 "4h", 3 "6h" and 4 "8h". *)
Theorem check_severity_estimated_time (issue severity : string) :
  let r := check_severity issue severity in
  estimated_time r = str_int (priority_level r * 2) ++ "h" /\
  (priority_level r = 1%Z /\ estimated_time r = "2h" \/
   priority_level r = 2%Z /\ estimated_time r = "4h" \/
   priority_level r = 3%Z /\ estimated_time r = "6h" \/
   priority_level r = 4%Z /\ estimated_time r = "8h").
Proof.
  destruct (check_severity_invariant issue severity) as [Hp _].
  cbv zeta in *.
  assert (He : estimated_time (check_severity issue severity) =
               str_int (priority_level (check_severity issue severity) * 2) ++ "h")
    by reflexivity.
  split; [exact He|]. rewrite He.
  destruct Hp as [H|[H|[H|H]]]; rewrite H; auto.
Qed.

(** C5: when [product] differs from [kb.product], the result is the
    single-entry mapping [{"error": "Product not found in knowledge base"}]. *)
Theorem search_product_mismatch (kb : KnowledgeBase) (issue product_ : string) :
  product_ <> product kb ->
  search_knowledge_base kb issue product_ =
  [("error", "Product not found in knowledge base")].
Proof.
  intros Hne. unfold search_knowledge_base.
  apply String.eqb_neq in Hne. rewrite Hne. reflexivity.
Qed.

Lemma search_product_mismatch_witness :
  ("OtherProduct" <> product kb_module) /\
  search_knowledge_base kb_module "crash" "OtherProduct" =
  [("error", "Product not found in knowledge base")].
Proof.
  split; [discriminate|].
  apply search_product_mismatch. discriminate.
Defined.

(** C6: when [product] equals [kb.product], the result consists exactly of
    the pairs [(known_issue, remedy)] of [kb.known_issues] whose lowercased
    key contains the lowercased [issue], in the dictionary's order; on the
    sample knowledge base, "connect" finds exactly the connection entry. *)
Theorem search_matches_exact (kb : KnowledgeBase) (issue : string) :
  NoDup (map fst (known_issues kb)) ->
  search_knowledge_base kb issue (product kb) =
    filter (fun item => contains (lower issue) (lower (fst item))) (known_issues kb) /\
  (forall k v, In (k, v) (search_knowledge_base kb issue (product kb)) <->
     In (k, v) (known_issues kb) /\ contains (lower issue) (lower k) = true) /\
  search_knowledge_base kb_module "connect" "CloudDB" =
    [("Can't connect to database", "Check connection string and firewall rules")].
Proof.
  intros Hnd. rewrite (search_filter kb issue Hnd).
  split; [reflexivity|]. split; [|reflexivity].
  intros k v. rewrite filter_In. reflexivity.
Qed.

Lemma search_matches_exact_witness :
  NoDup (map fst (known_issues kb_module)) /\
  search_knowledge_base kb_module "crash" (product kb_module) =
    [("Database crash", "Verify system resources and restart service")].
Proof.
  assert (Hnd : NoDup (map fst (known_issues kb_module))).
  { simpl. repeat constructor; simpl; intuition discriminate. }
  split; [exact Hnd|].
  destruct (search_matches_exact kb_module "crash" Hnd) as [H _].
  rewrite H. reflexivity.
Defined.

(** C7: both functions are total (pure functions of their string arguments:
    [search_knowledge_base] returns either the error mapping or entries of
    [kb.known_issues]), and [check_severity "" ""] is priority 1, no
    escalation, "2h". *)
Theorem core_total_and_empty :
  check_severity "" "" =
    {| priority_level := 1; needs_escalation := false; estimated_time := "2h" |} /\
  (forall issue severity, exists r, check_severity issue severity = r) /\
  (forall kb issue product_,
     search_knowledge_base kb issue product_ = not_found \/
     (forall x, In x (search_knowledge_base kb issue product_) -> In x (known_issues kb))).
Proof.
  split; [reflexivity|]. split; [intros; eexists; reflexivity|].
  intros kb issue product_. unfold search_knowledge_base.
  destruct (String.eqb product_ (product kb)); simpl; [right|left; reflexivity].
  intros x Hx. destruct (search_fold_incl _ _ _ _ Hx) as [[]|H]; exact H.
Qed.

(** C8 (divergence): a [SupportQuery] built without a timestamp takes the
    value of [datetime.datetime.now()] computed when the class was defined,
    so queries constructed at any two instants share the same timestamp. *)
Theorem SupportQuery_default_timestamp_shared
    (t_def t1 t2 : Z) (i1 s1 p1 u1 i2 s2 p2 u2 : string) :
  let cls := define_SupportQuery t_def in
  q_timestamp (construct_SupportQuery cls t1 i1 s1 p1 u1 None) = t_def /\
  q_timestamp (construct_SupportQuery cls t1 i1 s1 p1 u1 None) =
  q_timestamp (construct_SupportQuery cls t2 i2 s2 p2 u2 None).
Proof. split; reflexivity. Qed.

(** C9: the module-level knowledge base and the one built inside
    [handle_support_query] agree on [product], [known_issues] and [solutions]. *)
Theorem kb_literals_equal :
  product kb_module = product kb_handler /\
  known_issues kb_module = known_issues kb_handler /\
  solutions kb_module = solutions kb_handler /\
  kb_module = kb_handler.
Proof. repeat split. Qed.

(** C10: searching for the empty issue under [kb.product] returns the whole
    [kb.known_issues] mapping. *)
Theorem search_empty_issue_all (kb : KnowledgeBase) :
  NoDup (map fst (known_issues kb)) ->
  search_knowledge_base kb "" (product kb) = known_issues kb.
Proof.
  intros Hnd. rewrite (search_filter kb "" Hnd).
  induction (known_issues kb) as [|[k v] t IH]; [reflexivity|].
  unfold issue_matches at 1. simpl. rewrite contains_empty. f_equal.
  apply IH. inversion Hnd; assumption.
Qed.

Lemma search_empty_issue_all_witness :
  NoDup (map fst (known_issues kb_module)) /\
  search_knowledge_base kb_module "" (product kb_module) = known_issues kb_module.
Proof.
  assert (Hnd : NoDup (map fst (known_issues kb_module))).
  { simpl. repeat constructor; simpl; intuition discriminate. }
  split; [exact Hnd|]. exact (search_empty_issue_all kb_module Hnd).
Defined.

(** ** Further properties of the module *)

Lemma prefix_spec (a b : string) :
  prefix a b = true <-> exists y, b = a ++ y.
Proof.
  revert b; induction a as [|c a IH]; intros b.
  - split; [intros _; exists b; reflexivity|intros _; destruct b; reflexivity].
  - destruct b as [|d b]; simpl.
    + split; [discriminate|intros [y Hy]; discriminate].
    + destruct (ascii_dec c d) as [->|Hne].
      * rewrite IH. split; intros [y Hy]; exists y; [rewrite Hy|injection Hy]; auto.
      * split; [discriminate|intros [y Hy]; injection Hy; intros; congruence].
Qed.

Lemma contains_unfold (a b : string) :
  contains a b =
  prefix a b || match b with EmptyString => false | String _ t => contains a t end.
Proof. destruct b; reflexivity. Qed.

Lemma contains_spec (a b : string) :
  contains a b = true <-> exists x y, b = x ++ a ++ y.
Proof.
  induction b as [|c b IH]; rewrite contains_unfold, orb_true_iff, prefix_spec.
  - split.
    + intros [[y Hy]|H]; [exists "", y; exact Hy|discriminate].
    + intros [x [y H]]. left. destruct x; [exists y; exact H|discriminate].
  - rewrite IH. split.
    + intros [[y Hy]|[x [y Hy]]];
        [exists "", y; exact Hy|exists (String c x), y; rewrite Hy; reflexivity].
    + intros [x [y H]]. destruct x as [|c' x].
      * left. exists y. exact H.
      * right. injection H as -> ->. exists x, y. reflexivity.
Qed.

Lemma string_app_assoc (a b c : string) : a ++ (b ++ c) = (a ++ b) ++ c.
Proof. induction a; simpl; congruence. Qed.


Lemma contains_trans (a b c : string) :
  contains a b = true -> contains b c = true -> contains a c = true.
Proof.
  rewrite !contains_spec. intros [x [y ->]] [u [w ->]].
  exists (u ++ x), (y ++ w). rewrite !string_app_assoc. reflexivity.
Qed.



Lemma contains_app_mid (a x y : string) : contains a (x ++ a ++ y) = true.
Proof. apply contains_spec. exists x, y. reflexivity. Qed.

Lemma dict_set_keys {V} (d : dict V) k v x :
  In x (map fst (dict_set d k v)) -> In x (map fst d) \/ x = k.
Proof.
  intros H. apply in_map_iff in H as [[k' v'] [<- Hin]].
  destruct (dict_set_in d k v _ Hin) as [H|H].
  - left. apply in_map_iff. exists (k', v'). auto.
  - injection H as -> _. right. reflexivity.
Qed.

Lemma dict_set_nodup {V} (d : dict V) k v :
  NoDup (map fst d) -> NoDup (map fst (dict_set d k v)).
Proof.
  induction d as [|[k' v'] t IH]; simpl; intros Hnd.
  - constructor; [intros []|constructor].
  - inversion Hnd as [|? ? Hk' Ht]; subst.
    destruct (String.eqb_spec k k') as [->|Hne]; simpl.
    + constructor; assumption.
    + constructor; [|apply IH; assumption].
      intros Hin. destruct (dict_set_keys t k v k' Hin); [contradiction|congruence].
Qed.

Lemma search_fold_nodup (issue : string) (l acc : dict string) :
  NoDup (map fst acc) -> NoDup (map fst (fold_left (search_step issue) l acc)).
Proof.
  revert acc; induction l as [|[k v] t IH]; intros acc H; simpl; [exact H|].
  apply IH. destruct (contains (lower issue) (lower k));
    [apply dict_set_nodup|]; exact H.
Qed.


Lemma search_step_lower (i1 i2 : string) :
  lower i1 = lower i2 -> search_step i1 = search_step i2.
Proof. intros H. unfold search_step. rewrite H. reflexivity. Qed.

(** [check_severity] reads both arguments only through [str.lower]: two
    issues and two severities that agree after lowercasing give the same
    result. *)
Theorem check_severity_case_insensitive (i1 i2 s1 s2 : string) :
  lower i1 = lower i2 -> lower s1 = lower s2 ->
  check_severity i1 s1 = check_severity i2 s2.
Proof.
  intros Hi Hs. unfold check_severity, has_critical_keyword, base_priority_of.
  rewrite Hi, Hs. reflexivity.
Qed.

Lemma check_severity_case_insensitive_witness :
  lower "Data Loss on Disk" = lower "data loss on disk" /\
  lower "High" = lower "HIGH" /\
  check_severity "Data Loss on Disk" "High" = check_severity "data loss on disk" "HIGH".
Proof.
  split; [reflexivity|]. split; [reflexivity|].
  apply check_severity_case_insensitive; reflexivity.
Defined.

(** Escalation is raised exactly when the issue contains a critical keyword
    or the lowercased severity is "high" or "critical". *)
Theorem check_severity_escalation_iff (issue severity : string) :
  needs_escalation (check_severity issue severity) =
  has_critical_keyword issue ||
  (String.eqb (lower severity) "high" || String.eqb (lower severity) "critical").
Proof.
  unfold check_severity, base_priority_of, severity_levels; simpl.
  remember (lower severity) as ls eqn:Els; clear Els.
  destruct (String.eqb_spec ls "low") as [->|N1];
    [destruct (has_critical_keyword issue); reflexivity|].
  destruct (String.eqb_spec ls "medium") as [->|N2];
    [destruct (has_critical_keyword issue); reflexivity|].
  destruct (String.eqb_spec ls "high") as [->|N3];
    [destruct (has_critical_keyword issue); reflexivity|].
  destruct (String.eqb_spec ls "critical") as [->|N4];
    [destruct (has_critical_keyword issue); reflexivity|].
  destruct (has_critical_keyword issue); reflexivity.
Qed.

(** The keyword override never lowers the priority: the result is at least
    the table priority, at least 3 when a keyword occurs, and equal to the
    table priority whenever that is already 3 or more. *)
Theorem check_severity_override_monotone (issue severity : string) :
  let p := priority_level (check_severity issue severity) in
  (base_priority_of severity <= p)%Z /\
  (has_critical_keyword issue = true -> (3 <= p)%Z) /\
  ((3 <= base_priority_of severity)%Z -> p = base_priority_of severity).
Proof.
  cbv zeta. rewrite check_severity_priority.
  destruct (has_critical_keyword issue); repeat split; intros; lia.
Qed.

(** [search_knowledge_base] reads the issue only through [str.lower]. *)
Theorem search_case_insensitive (kb : KnowledgeBase) (i1 i2 product_ : string) :
  lower i1 = lower i2 ->
  search_knowledge_base kb i1 product_ = search_knowledge_base kb i2 product_.
Proof.
  intros H. unfold search_knowledge_base. rewrite (search_step_lower i1 i2 H).
  reflexivity.
Qed.

Lemma search_case_insensitive_witness :
  lower "CRASH" = lower "crash" /\
  search_knowledge_base kb_module "CRASH" "CloudDB" =
  search_knowledge_base kb_module "crash" "CloudDB".
Proof.
  split; [reflexivity|]. apply search_case_insensitive. reflexivity.
Defined.

(** Every result of [search_knowledge_base] has pairwise distinct keys, and
    under a matching product each of its entries is an entry of
    [kb.known_issues]. *)
Theorem search_result_wellformed (kb : KnowledgeBase) (issue product_ : string) :
  NoDup (map fst (search_knowledge_base kb issue product_)) /\
  (product_ = product kb ->
   forall x, In x (search_knowledge_base kb issue product_) -> In x (known_issues kb)).
Proof.
  unfold search_knowledge_base. split.
  - destruct (negb (String.eqb product_ (product kb))).
    + repeat constructor. intros [].
    + apply search_fold_nodup. constructor.
  - intros -> x Hx. rewrite String.eqb_refl in Hx. simpl in Hx.
    destruct (search_fold_incl _ _ _ _ Hx) as [[]|H]; exact H.
Qed.

Lemma search_result_wellformed_witness :
  "CloudDB" = product kb_module /\
  (forall x, In x (search_knowledge_base kb_module "data" "CloudDB") ->
             In x (known_issues kb_module)).
Proof.
  split; [reflexivity|].
  destruct (search_result_wellformed kb_module "data" "CloudDB") as [_ H].
  apply H. reflexivity.
Defined.

(** Under a matching product, a more specific issue finds fewer entries:
    when the lowercased [i2] occurs inside the lowercased [i1], every entry
    found for [i1] is also found for [i2]. *)
Theorem search_narrowing (kb : KnowledgeBase) (i1 i2 : string) :
  NoDup (map fst (known_issues kb)) ->
  contains (lower i2) (lower i1) = true ->
  forall x, In x (search_knowledge_base kb i1 (product kb)) ->
            In x (search_knowledge_base kb i2 (product kb)).
Proof.
  intros Hnd Hc x. rewrite !(search_filter kb _ Hnd), !filter_In.
  unfold issue_matches. intros [Hin Hm]. split; [exact Hin|].
  exact (contains_trans _ _ _ Hc Hm).
Qed.

Lemma search_narrowing_witness :
  NoDup (map fst (known_issues kb_module)) /\
  contains (lower "crash") (lower "Database crash") = true /\
  In ("Database crash", "Verify system resources and restart service")
     (search_knowledge_base kb_module "crash" (product kb_module)).
Proof.
  assert (Hnd : NoDup (map fst (known_issues kb_module))).
  { simpl. repeat constructor; simpl; intuition discriminate. }
  split; [exact Hnd|]. split; [reflexivity|].
  apply (search_narrowing kb_module "Database crash" "crash" Hnd); [reflexivity|].
  left. reflexivity.
Defined.



(** [handle_support_query] never passes [user_id] or [timestamp] to the
    agent: two queries that agree on product, severity and issue get the
    same answer from the same agent. *)
Theorem handle_support_query_ignores_user_and_time
    (agent_run : string -> KnowledgeBase -> option Response.SupportResponse)
    (q1 q2 : SupportQuery) :
  q_product q1 = q_product q2 -> q_severity q1 = q_severity q2 ->
  q_issue q1 = q_issue q2 ->
  handle_support_query agent_run q1 = handle_support_query agent_run q2.
Proof.
  intros Hp Hs Hi. unfold handle_support_query, support_prompt.
  rewrite Hp, Hs, Hi. reflexivity.
Qed.

Lemma handle_support_query_ignores_user_and_time_witness :
  let q1 := {| q_issue := "Database crash"; q_severity := "high";
               q_product := "CloudDB"; q_user_id := "user123"; q_timestamp := 0 |} in
  let q2 := {| q_issue := "Database crash"; q_severity := "high";
               q_product := "CloudDB"; q_user_id := "user456"; q_timestamp := 99 |} in
  q_product q1 = q_product q2 /\ q_severity q1 = q_severity q2 /\
  q_issue q1 = q_issue q2 /\
  handle_support_query (fun p _ => Some {| Response.solution := p;
       Response.next_steps := []; Response.escalate := false;
       Response.priority_level := 1; Response.estimated_time := "2h" |}) q1 =
  handle_support_query (fun p _ => Some {| Response.solution := p;
       Response.next_steps := []; Response.escalate := false;
       Response.priority_level := 1; Response.estimated_time := "2h" |}) q2.
Proof.
  cbv zeta. split; [reflexivity|]. split; [reflexivity|]. split; [reflexivity|].
  apply handle_support_query_ignores_user_and_time; reflexivity.
Defined.

Lemma contains_skip (a x y : string) :
  contains a y = true -> contains a (x ++ y) = true.
Proof.
  rewrite !contains_spec. intros [u [w ->]]. exists (x ++ u), w.
  rewrite !string_app_assoc. reflexivity.
Qed.

Lemma contains_head (a b y : string) :
  contains (a ++ b) (a ++ (b ++ y)) = true.
Proof.
  apply contains_spec. exists "", y. simpl. rewrite string_app_assoc. reflexivity.
Qed.

(** The prompt sent by [handle_support_query] carries the query's fields
    verbatim, each after its label: "Product: ", "Severity: " and "Issue: ". *)
Theorem support_prompt_mentions_fields (query : SupportQuery) :
  contains ("Product: " ++ q_product query) (support_prompt query) = true /\
  contains ("Severity: " ++ q_severity query) (support_prompt query) = true /\
  contains ("Issue: " ++ q_issue query) (support_prompt query) = true.
Proof.
  unfold support_prompt.
  repeat split;
  repeat (apply contains_head || apply contains_skip).
Qed.
